(** * BackUp_Cat.py: a cat picture is fetched, uploaded to Yandex.Disk, and the
      outcome is recorded in a JSON file.

    The script is embedded shallowly.  Python values are an inductive type,
    dictionaries are finite maps, and the script's effects (console, HTTP
    requests, the clock, the result file) are threaded through a small
    state-and-exception monad whose state carries the event log of the run. *)

From Stdlib Require Import ZArith NArith QArith Qround Ascii String List Bool Lia Lqa.
From stdpp Require Import gmap strings list fin_maps.
Import ListNotations.

Set Default Proof Using "Type".
Local Open Scope N_scope.

(** ** Python strings *)

(** A Python [str] is a sequence of Unicode code points. *)
Abbreviation char := N (only parsing).
Abbreviation str := (list N) (only parsing).

(** A string literal of the source (the literals used below are ASCII). *)
Definition u (s : string) : str :=
  List.map N_of_ascii (list_ascii_of_string s).

Definition space : char := 32.
Definition underscore : char := 95.
Definition hyphen : char := 45.

(** [c.isspace()]: the code points CPython classifies as whitespace; these
    are the ones [str.strip()] and [str.rstrip()] remove. *)
Definition isspace (c : char) : bool :=
  ((9 <=? c) && (c <=? 13)) || ((28 <=? c) && (c <=? 32))
  || (c =? 133) || (c =? 160) || (c =? 5760)
  || ((8192 <=? c) && (c <=? 8202))
  || (c =? 8232) || (c =? 8233) || (c =? 8239) || (c =? 8287) || (c =? 12288).

(** [s.lstrip()] *)
Fixpoint lstrip (s : str) : str :=
  match s with
  | [] => []
  | c :: s' => if isspace c then lstrip s' else s
  end.

(** [s.rstrip()]: the longest whitespace suffix is removed. *)
Fixpoint rstrip (s : str) : str :=
  match s with
  | [] => []
  | c :: s' =>
      match rstrip s' with
      | [] => if isspace c then [] else [c]
      | r => c :: r
      end
  end.

(** [s.strip()] *)
Definition strip (s : str) : str := lstrip (rstrip s).

(** [s.replace(old, new)] for one-character [old] and [new]. *)
Definition replace (old new : char) (s : str) : str :=
  List.map (fun c => if c =? old then new else c) s.

(** [c in (' ', '_', '-')] *)
Definition in_punct (c : char) : bool :=
  (c =? space) || (c =? underscore) || (c =? hyphen).

(** [c.isalnum()] on the ASCII range; the classifier used for the concrete
    runs below. *)
Definition ascii_isalnum (c : char) : bool :=
  ((48 <=? c) && (c <=? 57)) || ((65 <=? c) && (c <=? 90))
  || ((97 <=? c) && (c <=? 122)).

Section Filename.
(** [c.isalnum()] consults the Unicode character database, which is not
    part of the repository: it is a parameter of the development. *)
Variable isalnum : char -> bool.

(** The generator condition of line 103. *)
Definition keep (c : char) : bool := isalnum c || in_punct c.

(** Lines 103-104 of [main]. *)
Definition safe_filename (text : str) : str :=
  let safe_filename := rstrip (List.filter keep text) in
  replace space underscore safe_filename ++ u ".jpg".

(** The derived name without its extension. *)
Definition stem (text : str) : str :=
  replace space underscore (rstrip (List.filter keep text)).
End Filename.

(** ** Python values *)

(** The values the script handles: what [response.json()] returns and what
    the result dictionaries hold.  Floats are the finite ones, carried as
    the rational they denote. *)
#[warnings="-register-all"]
Inductive pyval :=
| VNone
| VBool (b : bool)
| VInt (n : Z)
| VFloat (x : Q)
| VStr (s : str)
| VList (l : list pyval)
| VDict (d : gmap str pyval).

(** Truth value of an object, as tested by [if v:] and [not v]. *)
Definition truthy (v : pyval) : bool :=
  match v with
  | VNone => false
  | VBool b => b
  | VInt n => negb (n =? 0)%Z
  | VFloat x => negb (Qeq_bool x 0)
  | VStr s => negb (bool_decide (s = []))
  | VList l => negb (bool_decide (l = []))
  | VDict d => negb (bool_decide (d = ∅))
  end.

(** [len(b)] *)
Definition len {A} (l : list A) : Z := Z.of_nat (length l).

(** Conversion of a non-negative [int] to the nearest number with 53
    significant bits, ties to even. *)
Definition round53 (n : Z) : Z :=
  let e := (Z.log2 n - 52)%Z in
  if (e <=? 0)%Z then n
  else
    let q := Z.shiftr n e in
    let r := Z.land n (Z.ones e) in
    let half := Z.shiftl 1 (e - 1) in
    let q' := if (half <? r)%Z || ((r =? half)%Z && Z.odd q) then (q + 1)%Z else q in
    Z.shiftl q' e.

(** [n / 1024] on a non-negative [int]: true division yields the binary64
    number nearest to the quotient, and a division by [2^10] only shifts the
    exponent.  The rational is kept in lowest terms. *)
Definition truediv_1024 (n : Z) : Q := Qred (round53 n # 1024).

(** The number of hundredths printed by the format [:.2f]: nearest, ties to
    even on the exact value. *)
Definition format_2f (x : Q) : Z :=
  let y := (x * 100)%Q in
  let f := Qfloor y in
  match (y - inject_Z f ?= 1 # 2)%Q with
  | Lt => f
  | Gt => (f + 1)%Z
  | Eq => if Z.even f then f else (f + 1)%Z
  end.

(** ** The environment of a run *)

(** Exceptions that reach the script from the library calls it makes. *)
Inductive exn :=
| EOFError            (* [input()] at end of input *)
| RequestException    (* [requests.get] / [requests.put]: no response *)
| JSONDecodeError     (* [response.json()] on a body that is not JSON *)
| AttributeError      (* [.get] on a value that is not a dictionary *)
| OSError.            (* [open] *)

Inductive result (A : Type) :=
| Ok (a : A)
| Raise (e : exn).
Arguments Ok {A} a.
Arguments Raise {A} e.

Inductive method := GET | PUT.

(** The arguments of a [requests.get] / [requests.put] call; a keyword
    that is not passed is the empty dictionary. *)
Record request := Request {
  req_method : method;
  req_url : pyval;
  req_headers : gmap str str;
  req_params : gmap str pyval;
  req_files : gmap str (list Byte.byte)
}.

(** The attributes of a [requests] response that the script reads. *)
Record response := Response {
  status_code : Z;
  content : list Byte.byte;
  json : result pyval
}.

(** What [save_json_data] leaves in a file: the dictionary dumped, together
    with the encoding of the file and the options given to [json.dump]. *)
Record json_file := JsonFile {
  encoding : str;
  ensure_ascii : bool;
  indent : Z;
  payload : gmap str pyval
}.

(** Everything outside the script: the lines typed at the prompts, the
    outcome of each HTTP request, the formatted local time, the files
    [open] refuses to create, and the files present at the start. *)
Record world := World {
  stdin : list str;
  http : request -> result response;
  now : str;
  open_error : str -> option exn;
  files : gmap str json_file
}.

(** ** The log of a run *)

Inductive prompt :=
| PromptText     (* line 69 *)
| PromptToken    (* line 70 *)
| PromptGroup.   (* line 73 *)

(** One constructor per [print] of the script, with the values it
    interpolates. *)
Inductive message :=
| MsgBanner                               (* line 66 *)
| MsgFieldsRequired                       (* line 76 *)
| MsgCreatingFolder (group_name : str)    (* line 83 *)
| MsgFolderError (status : Z)             (* line 87 *)
| MsgFolderAnswer (body : pyval)          (* line 88 *)
| MsgFolderReady                          (* line 91 *)
| MsgFetching (text : str)                (* line 94 *)
| MsgFetchError                           (* line 98 *)
| MsgUploading (safe_filename : str)      (* line 110 *)
| MsgUploaded                             (* line 114 *)
| MsgSaved (filename : str)               (* line 62 *)
| MsgInfoHeader                           (* line 132 *)
| MsgInfoName (safe_filename : str)       (* line 133 *)
| MsgInfoText (text : str)                (* line 134 *)
| MsgInfoFolder (group_name : str)        (* line 135 *)
| MsgInfoSize (size : Z) (hundredths : Z) (* line 136 *)
| MsgInfoPath (disk_file_path : str)      (* line 137 *)
| MsgUploadFailed.                        (* line 140 *)

(** The function that issues an HTTP request. *)
Inductive call :=
| CreateFolder     (* [YandexDiskUploader.create_folder] *)
| GetUploadLink    (* [YandexDiskUploader.get_upload_link] *)
| UploadFile       (* [YandexDiskUploader.upload_file] *)
| GetCatImage.     (* [get_cat_image] *)

Inductive event :=
| Input (p : prompt)
| Print (m : message)
| Http (c : call) (r : request)
| Dump (filename : str) (f : json_file).

Record state := State {
  pending : list str;            (* input not read yet *)
  log : list event;              (* events so far, oldest first *)
  disk : gmap str json_file      (* the working directory *)
}.

(** ** The monad of the script: state and exceptions *)

Definition M (A : Type) : Type := state -> result A * state.

Global Instance M_ret : MRet M := fun A a s => (Ok a, s).
Global Instance M_bind : MBind M := fun A B f m s =>
  match m s with
  | (Ok a, s') => f a s'
  | (Raise e, s') => (Raise e, s')
  end.
Global Instance M_fmap : FMap M := fun A B f m s =>
  match m s with
  | (Ok a, s') => (Ok (f a), s')
  | (Raise e, s') => (Raise e, s')
  end.
Global Instance M_throw : MThrow exn M := fun A e s => (Raise e, s).

Definition emit (e : event) : M unit := fun s =>
  (Ok tt, State (pending s) (log s ++ [e]) (disk s)).

Definition print (m : message) : M unit := emit (Print m).

Definition read_line : M str := fun s =>
  match pending s with
  | [] => (Raise EOFError, s)
  | line :: rest => (Ok line, State rest (log s) (disk s))
  end.

(** [input(prompt)]: the prompt is shown, then a line is read. *)
Definition input (p : prompt) : M str := emit (Input p);; read_line.

(** A value computed by a library call that may raise. *)
Definition lift {A} (r : result A) : M A := fun s => (r, s).

(** [v.get(key)] *)
Definition py_get (v : pyval) (key : str) : M pyval :=
  match v with
  | VDict d => mret (default VNone (d !! key))
  | _ => mthrow AttributeError
  end.

(** ** The script *)

Section Script.
Variable isalnum : char -> bool.
Variable w : world.

(** [requests.get] and [requests.put]: the request is logged under the
    function that makes it, and the world answers. *)
Definition requests (c : call) (r : request) : M response :=
  emit (Http c r);; lift (http w r).

(** [class YandexDiskUploader] *)
Record YandexDiskUploader := {
  token : str;
  base_url : str;
  headers : gmap str str
}.

(** [YandexDiskUploader.__init__] *)
Definition init (token : str) : YandexDiskUploader :=
  {| token := token;
     base_url := u "https://cloud-api.yandex.net/v1/disk/resources";
     headers := {[ u "Authorization" := u "OAuth " ++ token ]} |}.

Definition create_folder (self : YandexDiskUploader) (folder_name : str)
  : M response :=
  let url := base_url self in
  let params : gmap str pyval := {[ u "path" := VStr folder_name ]} in
  requests CreateFolder (Request PUT (VStr url) (headers self) params ∅).

Definition get_upload_link (self : YandexDiskUploader) (disk_file_path : str)
  : M pyval :=
  let url := base_url self ++ u "/upload" in
  let params : gmap str pyval :=
    list_to_map [ (u "path", VStr disk_file_path);
                  (u "overwrite", VStr (u "true")) ] in
  response ← requests GetUploadLink
               (Request GET (VStr url) (headers self) params ∅);
  body ← lift (json response);
  py_get body (u "href").

Definition upload_file (self : YandexDiskUploader) (disk_file_path : str)
    (file_content : list Byte.byte) : M bool :=
  upload_url ← get_upload_link self disk_file_path;
  if truthy upload_url then
    response ← requests UploadFile
                 (Request PUT upload_url ∅ ∅ {[ u "file" := file_content ]});
    mret (status_code response =? 201)%Z
  else mret false.

(** [None] is the Python [None]; [Some b] a [bytes] object. *)
Definition get_cat_image (text : str) : M (option (list Byte.byte)) :=
  let url := u "https://cataas.com/cat/says/" ++ text in
  let params : gmap str pyval :=
    list_to_map [ (u "width", VInt 800);
                  (u "height", VInt 600);
                  (u "color", VStr (u "white")) ] in
  response ← requests GetCatImage (Request GET (VStr url) ∅ params ∅);
  if (status_code response =? 200)%Z then mret (Some (content response))
  else mret None.

(** [with open(filename, 'w', encoding='utf-8') as f: json.dump(...)] *)
Definition open_and_dump (filename : str) (f : json_file) : M unit :=
  fun s =>
    match open_error w filename with
    | Some e => (Raise e, s)
    | None =>
        (Ok tt, State (pending s) (log s ++ [Dump filename f])
                      (<[filename := f]> (disk s)))
    end.

Definition save_json_data (data : gmap str pyval) (filename : str) : M unit :=
  open_and_dump filename (JsonFile (u "utf-8") false 4 data);;
  print (MsgSaved filename).

(** The default value of the parameter [filename]. *)
Definition default_filename : str := u "upload_info.json".

Definition is_empty (s : str) : bool := bool_decide (s = []).

Definition main : M unit :=
  print MsgBanner;;
  text ← strip <$> input PromptText;
  token ← strip <$> input PromptToken;
  group_name ← strip <$> input PromptGroup;
  if is_empty text || is_empty token || is_empty group_name then
    print MsgFieldsRequired
  else
    let uploader := init token in
    print (MsgCreatingFolder group_name);;
    folder_response ← create_folder uploader group_name;
    if negb (bool_decide (status_code folder_response ∈ [201; 409]%Z)) then
      print (MsgFolderError (status_code folder_response));;
      body ← lift (json folder_response);
      print (MsgFolderAnswer body)
    else
      print MsgFolderReady;;
      print (MsgFetching text);;
      image_content ← get_cat_image text;
      match image_content with
      | None | Some [] => print MsgFetchError
      | Some image_content =>
          let safe_filename := safe_filename isalnum text in
          let disk_file_path := group_name ++ u "/" ++ safe_filename in
          print (MsgUploading safe_filename);;
          upload_success ← upload_file uploader disk_file_path image_content;
          if upload_success : bool then
            print MsgUploaded;;
            let file_info : gmap str pyval :=
              list_to_map
                [ (u "file_name", VStr safe_filename);
                  (u "original_text", VStr text);
                  (u "folder_name", VStr group_name);
                  (u "disk_path", VStr disk_file_path);
                  (u "file_size_bytes", VInt (len image_content));
                  (u "file_size_kb", VFloat (truediv_1024 (len image_content)));
                  (u "upload_date", VStr (now w));
                  (u "source", VStr (u "cataas.com"));
                  (u "upload_status", VStr (u "success")) ] in
            save_json_data file_info default_filename;;
            print MsgInfoHeader;;
            print (MsgInfoName safe_filename);;
            print (MsgInfoText text);;
            print (MsgInfoFolder group_name);;
            print (MsgInfoSize (len image_content)
                     (format_2f (truediv_1024 (len image_content))));;
            print (MsgInfoPath disk_file_path)
          else
            print MsgUploadFailed;;
            let error_info : gmap str pyval :=
              list_to_map
                [ (u "file_name", VStr safe_filename);
                  (u "original_text", VStr text);
                  (u "folder_name", VStr group_name);
                  (u "disk_path", VStr disk_file_path);
                  (u "upload_date", VStr (now w));
                  (u "upload_status", VStr (u "failed"));
                  (u "error", VStr (u "Failed to upload to Yandex.Disk")) ] in
            save_json_data error_info (u "upload_error.json")
      end.

(** The state in which the script starts. *)
Definition initial : state := State (stdin w) [] (files w).

(** A run of the script: how it ends, and the final state. *)
Definition run : result unit * state := main initial.
End Script.

(** ** Observations on a log *)

Definition is_call (c : call) (e : event) : bool :=
  match e, c with
  | Http CreateFolder _, CreateFolder
  | Http GetUploadLink _, GetUploadLink
  | Http UploadFile _, UploadFile
  | Http GetCatImage _, GetCatImage => true
  | _, _ => false
  end.

(** How many requests a function has issued. *)
Definition count_calls (c : call) (l : list event) : nat :=
  length (List.filter (is_call c) l).

(** Requests to the storage service: folder creation, upload-link
    resolution and upload. *)
Definition storage_calls (l : list event) : nat :=
  (count_calls CreateFolder l + count_calls GetUploadLink l
   + count_calls UploadFile l)%nat.

(** The files written, oldest first. *)
Definition dumps (l : list event) : list (list N * json_file) :=
  flat_map (fun e => match e with Dump n f => [(n, f)] | _ => [] end) l.

(** ** Stubbed services *)

Definition storage_api : str :=
  u "https://cloud-api.yandex.net/v1/disk/resources".

(** A network with one fixed outcome per kind of request. *)
Definition stub_http (folder cat link upload : result response) (r : request)
  : result response :=
  match req_method r, req_url r with
  | PUT, VStr url => if bool_decide (url = storage_api) then folder else upload
  | GET, VStr url =>
      if bool_decide (url = storage_api ++ u "/upload") then link else cat
  | _, _ => Raise RequestException
  end.

Definition stub_world (lines : list str)
    (folder cat link upload : result response) : world :=
  World lines (stub_http folder cat link upload) (u "2024-01-01 12:00:00")
        (fun _ => None) ∅.

(** A response with a status and nothing else. *)
Definition reply (status : Z) : response :=
  Response status [] (Raise JSONDecodeError).

(** A picture of [n] bytes. *)
Definition picture (n : nat) : response :=
  Response 200 (repeat Byte.x00 n) (Raise JSONDecodeError).

Definition link_reply (body : gmap str pyval) : response :=
  Response 200 [] (Ok (VDict body)).

Definition href_reply : response :=
  link_reply {[ u "href" := VStr (u "https://uploader.example/1") ]}.

Definition hello_lines : list str := [u "Hello World"; u "token"; u "group1"].

(** Every service answers as hoped; the picture has [n] bytes. *)
Definition w_hello (n : nat) : world :=
  stub_world hello_lines (Ok (reply 201)) (Ok (picture n)) (Ok href_reply)
             (Ok (reply 201)).

(** The folder exists already. *)
Definition w_folder_exists : world :=
  stub_world hello_lines (Ok (reply 409)) (Ok (picture 2048)) (Ok href_reply)
             (Ok (reply 201)).

(** The content service answers 404. *)
Definition w_no_cat : world :=
  stub_world hello_lines (Ok (reply 201)) (Ok (reply 404)) (Ok href_reply)
             (Ok (reply 201)).

(** The content service answers 200 with an empty body. *)
Definition w_empty_cat : world :=
  stub_world hello_lines (Ok (reply 201)) (Ok (picture 0)) (Ok href_reply)
             (Ok (reply 201)).

(** The upload target is unreachable. *)
Definition w_upload_down : world :=
  stub_world hello_lines (Ok (reply 201)) (Ok (picture 2048)) (Ok href_reply)
             (Raise RequestException).

(** The upload is answered with 507. *)
Definition w_upload_refused : world :=
  stub_world hello_lines (Ok (reply 201)) (Ok (picture 2048)) (Ok href_reply)
             (Ok (reply 507)).

(** The token is left blank. *)
Definition w_blank_token : world :=
  stub_world [u "Hello World"; u "   "; u "group1"] (Ok (reply 201))
             (Ok (picture 2048)) (Ok href_reply) (Ok (reply 201)).

(** The requests of the runs above. *)
Definition hello_headers : gmap str str :=
  {[ u "Authorization" := u "OAuth token" ]}.

Definition hello_folder_request : request :=
  Request PUT (VStr storage_api) hello_headers
          {[ u "path" := VStr (u "group1") ]} ∅.

Definition hello_cat_request : request :=
  Request GET (VStr (u "https://cataas.com/cat/says/Hello World")) ∅
          (list_to_map [ (u "width", VInt 800); (u "height", VInt 600);
                         (u "color", VStr (u "white")) ]) ∅.

Definition hello_link_request : request :=
  Request GET (VStr (storage_api ++ u "/upload")) hello_headers
    (list_to_map [ (u "path", VStr (u "group1/Hello_World.jpg"));
                   (u "overwrite", VStr (u "true")) ]) ∅.

Definition hello_upload_request (n : nat) : request :=
  Request PUT (VStr (u "https://uploader.example/1")) ∅ ∅
          {[ u "file" := repeat Byte.x00 n ]}.

(** The events of the runs above up to the fetch of the picture. *)
Definition hello_prefix : list event :=
  [ Print MsgBanner; Input PromptText; Input PromptToken; Input PromptGroup;
    Print (MsgCreatingFolder (u "group1"));
    Http CreateFolder hello_folder_request; Print MsgFolderReady;
    Print (MsgFetching (u "Hello World"));
    Http GetCatImage hello_cat_request ].

(** The records of the runs above. *)
Definition hello_info (n : nat) : json_file :=
  JsonFile (u "utf-8") false 4
    (list_to_map
       [ (u "file_name", VStr (u "Hello_World.jpg"));
         (u "original_text", VStr (u "Hello World"));
         (u "folder_name", VStr (u "group1"));
         (u "disk_path", VStr (u "group1/Hello_World.jpg"));
         (u "file_size_bytes", VInt (Z.of_nat n));
         (u "file_size_kb", VFloat (truediv_1024 (Z.of_nat n)));
         (u "upload_date", VStr (u "2024-01-01 12:00:00"));
         (u "source", VStr (u "cataas.com"));
         (u "upload_status", VStr (u "success")) ]).

Definition hello_error : json_file :=
  JsonFile (u "utf-8") false 4
    (list_to_map
       [ (u "file_name", VStr (u "Hello_World.jpg"));
         (u "original_text", VStr (u "Hello World"));
         (u "folder_name", VStr (u "group1"));
         (u "disk_path", VStr (u "group1/Hello_World.jpg"));
         (u "upload_date", VStr (u "2024-01-01 12:00:00"));
         (u "upload_status", VStr (u "failed"));
         (u "error", VStr (u "Failed to upload to Yandex.Disk")) ]).

(** ** Further observations and stubs *)

(** The functions that issued the requests of a log, in the order of the
    requests. *)
Definition calls (l : list event) : list call :=
  flat_map (fun e => match e with Http c _ => [c] | _ => [] end) l.


(** The link response is a JSON array. *)
Definition w_link_list : world :=
  stub_world hello_lines (Ok (reply 201)) (Ok (picture 2048))
             (Ok (Response 200 [] (Ok (VList [])))) (Ok (reply 201)).

Definition forbidden_body : pyval :=
  VDict {[ u "error" := VStr (u "ForbiddenError") ]}.

(** The folder cannot be created; the refusal comes with a JSON body. *)
Definition w_forbidden : world :=
  stub_world hello_lines (Ok (Response 403 [] (Ok forbidden_body)))
             (Ok (picture 2048)) (Ok href_reply) (Ok (reply 201)).

(** The input ends after the second prompt. *)
Definition w_eof : world :=
  stub_world [u "Hello World"; u "token"] (Ok (reply 201))
             (Ok (picture 2048)) (Ok href_reply) (Ok (reply 201)).


(** * Properties *)

(** ** Concrete runs of the pure parts *)

Example safe_filename_hello :
  safe_filename ascii_isalnum (u "Hello World") = u "Hello_World.jpg".
Proof. reflexivity. Qed.

Example safe_filename_punct :
  safe_filename ascii_isalnum (u "a/b: c! ") = u "ab_c.jpg".
Proof. reflexivity. Qed.

(** Without the stripping of line 69 a trailing space would be lost, not
    replaced. *)
Example safe_filename_trailing_space :
  safe_filename ascii_isalnum (u "a ") = u "a.jpg".
Proof. reflexivity. Qed.

Example strip_both_ends : strip (u "  a b  ") = u "a b".
Proof. reflexivity. Qed.

Example truediv_2048 : truediv_1024 2048 = 2%Q.
Proof. reflexivity. Qed.

Example truediv_1000 : truediv_1024 1000 = (125 # 128)%Q.
Proof. reflexivity. Qed.

Example format_1000 : format_2f (truediv_1024 1000) = 98%Z.
Proof. reflexivity. Qed.

(** Above [2^53] the quotient is rounded. *)
Example truediv_large :
  truediv_1024 (2 ^ 53 + 1) = truediv_1024 (2 ^ 53).
Proof. reflexivity. Qed.

(** ** Stripping *)

Lemma rstrip_idem (s : str) : rstrip (rstrip s) = rstrip s.
Proof.
  induction s as [|c s IH]; [reflexivity|].
  cbn [rstrip]. destruct (rstrip s) as [|x r] eqn:E.
  - destruct (isspace c) eqn:Ec; cbn [rstrip]; [reflexivity|].
    now rewrite Ec.
  - cbn [rstrip] in *. now rewrite IH.
Qed.

Lemma rstrip_lstrip_fixed (r : str) :
  rstrip r = r -> rstrip (lstrip r) = lstrip r.
Proof.
  induction r as [|c r IH]; [reflexivity|].
  intros H. cbn [lstrip]. destruct (isspace c) eqn:Ec; [|exact H].
  apply IH. cbn [rstrip] in H. destruct (rstrip r) as [|x r'] eqn:E.
  - rewrite Ec in H. discriminate H.
  - now injection H.
Qed.

(** What [strip] returns has no whitespace left at its end. *)
Lemma rstrip_strip (s : str) : rstrip (strip s) = strip s.
Proof. apply rstrip_lstrip_fixed, rstrip_idem. Qed.

(** [rstrip] removes a suffix made of whitespace ... *)
Lemma rstrip_suffix (s : str) :
  exists ws, s = rstrip s ++ ws /\ Forall (fun c => isspace c = true) ws.
Proof.
  induction s as [|c s (ws & E & Hws)]; [now exists []|].
  cbn [rstrip]. destruct (rstrip s) as [|x r] eqn:Er.
  - destruct (isspace c) eqn:Ec.
    + exists (c :: ws). cbn in E. subst s. split; [reflexivity|].
      now constructor.
    + exists ws. cbn in *. now subst s.
  - exists ws. split; [|exact Hws]. cbn. f_equal. exact E.
Qed.

(** ... and what it leaves does not end in whitespace. *)
Lemma rstrip_last (s : str) (c : N) :
  last (rstrip s) = Some c -> isspace c = false.
Proof.
  revert c. induction s as [|a s IH]; intros c; [discriminate|].
  cbn [rstrip]. destruct (rstrip s) as [|x r] eqn:Er.
  - destruct (isspace a) eqn:Ea; [discriminate|].
    cbn. intros [= <-]. exact Ea.
  - intros H. apply IH. exact H.
Qed.

Lemma lstrip_suffix (s : str) :
  exists ws, s = ws ++ lstrip s /\ Forall (fun c => isspace c = true) ws.
Proof.
  induction s as [|c s (ws & E & Hws)]; [now exists []|].
  cbn [lstrip]. destruct (isspace c) eqn:Ec.
  - exists (c :: ws). split; [cbn; f_equal; exact E | now constructor].
  - now exists [].
Qed.

Lemma filter_all {A} (p : A -> bool) (l : list A) :
  (forall x, In x l -> p x = true) -> List.filter p l = l.
Proof.
  induction l as [|a l IH]; intros H; [reflexivity|].
  cbn. rewrite (H a (or_introl eq_refl)). f_equal.
  apply IH. intros x Hx. apply H. now right.
Qed.

Lemma in_replace (old new : N) (s : str) (c : N) :
  In c (replace old new s) ->
  (c = new /\ In old s) \/ (c <> old /\ In c s).
Proof.
  unfold replace. rewrite in_map_iff. intros (x & Hx & Hin).
  destruct (N.eqb_spec x old) as [E|E]; subst c; [left|right]; split; auto.
  now rewrite <- E.
Qed.

(** ** The derived file name *)

Section FilenameFacts.
Variable isalnum : N -> bool.

Lemma keep_spec (c : N) :
  keep isalnum c = true <->
  isalnum c = true \/ c = space \/ c = underscore \/ c = hyphen.
Proof.
  unfold keep, in_punct. rewrite !orb_true_iff, !N.eqb_eq. tauto.
Qed.

Lemma safe_filename_stem (text : str) :
  safe_filename isalnum text = stem isalnum text ++ u ".jpg".
Proof. reflexivity. Qed.

Lemma stem_chars (text : str) (c : N) :
  In c (stem isalnum text) ->
  isalnum c = true \/ c = underscore \/ c = hyphen.
Proof.
  intros H. apply in_replace in H as [[-> _]|[Hne H]]; [auto|].
  destruct (rstrip_suffix (List.filter (keep isalnum) text)) as (ws & E & _).
  assert (Hin : In c (List.filter (keep isalnum) text)).
  { rewrite E. apply in_or_app. now left. }
  apply filter_In in Hin as [_ Hk]. apply keep_spec in Hk. tauto.
Qed.
End FilenameFacts.

(** C1.  The display text of [main] is the line typed at the first prompt
    with the surrounding whitespace stripped (line 69).  When it consists
    only of alphanumerics, spaces, underscores and hyphens, the derived file
    name is that text with every space replaced by an underscore, followed
    by [".jpg"], and the part before the extension holds alphanumerics,
    underscores and hyphens only. *)
Theorem filename_of_clean_text (isalnum : N -> bool) (raw : str) :
  let text := strip raw in
  (forall c, In c text ->
     isalnum c = true \/ c = space \/ c = underscore \/ c = hyphen) ->
  safe_filename isalnum text = replace space underscore text ++ u ".jpg"
  /\ (forall c, In c (replace space underscore text) ->
        isalnum c = true \/ c = underscore \/ c = hyphen).
Proof.
  intros text Hclean.
  assert (Hstem : stem isalnum text = replace space underscore text).
  { unfold stem. rewrite filter_all.
    - unfold text. now rewrite rstrip_strip.
    - intros c Hc. apply keep_spec. auto. }
  split.
  - now rewrite safe_filename_stem, Hstem.
  - intros c Hc. rewrite <- Hstem in Hc. revert Hc. apply stem_chars.
Qed.

Lemma filename_of_clean_text_witness :
  safe_filename ascii_isalnum (strip (u "  Hello World-2_b "))
  = u "Hello_World-2_b.jpg".
Proof.
  refine (proj1 (filename_of_clean_text ascii_isalnum
                   (u "  Hello World-2_b ") _)).
  intros c Hc. vm_compute in Hc.
  repeat (destruct Hc as [<-|Hc]; [vm_compute; auto|]).
  destruct Hc.
Defined.

(** C10.  Whatever the display text, the derived file name is a stem
    followed by [".jpg"], and the stem holds alphanumerics, underscores and
    hyphens only.  The stem is obtained from the characters the filter keeps
    (the others are dropped) by removing the whitespace at their end and
    writing an underscore for each space that remains. *)
Theorem filename_shape (isalnum : N -> bool) (text : str) :
  exists kept ws,
    List.filter (keep isalnum) text = kept ++ ws
    /\ Forall (fun c => isspace c = true) ws
    /\ match last kept with Some c => isspace c = false | None => True end
    /\ safe_filename isalnum text = replace space underscore kept ++ u ".jpg"
    /\ Forall (fun c => isalnum c = true \/ c = underscore \/ c = hyphen)
              (replace space underscore kept).
Proof.
  destruct (rstrip_suffix (List.filter (keep isalnum) text)) as (ws & E & Hws).
  exists (rstrip (List.filter (keep isalnum) text)), ws.
  split; [exact E|]. split; [exact Hws|]. split.
  - destruct (last _) as [c|] eqn:El; [|exact I].
    now apply rstrip_last in El.
  - split; [reflexivity|].
    apply List.Forall_forall. intros c. apply stem_chars.
Qed.

(** ** Symbolic execution of a run *)

Lemma Http_inj c c' r r' : Http c r = Http c' r' -> c = c' /\ r = r'.
Proof. intros [= -> ->]. now split. Qed.

Lemma Dump_inj n n' f f' : Dump n f = Dump n' f' -> n = n' /\ f = f'.
Proof. intros [= -> ->]. now split. Qed.

Lemma status_ok_iff (s : Z) :
  negb (bool_decide (s ∈ [201; 409]%Z)) = false <-> s = 201%Z \/ s = 409%Z.
Proof.
  rewrite negb_false_iff, bool_decide_eq_true.
  rewrite !elem_of_cons, elem_of_nil. tauto.
Qed.

Lemma empty_inputs (a b c : str) :
  is_empty a || is_empty b || is_empty c = true <-> a = [] \/ b = [] \/ c = [].
Proof.
  unfold is_empty. rewrite !orb_true_iff, !bool_decide_eq_true. tauto.
Qed.

Ltac unfold_script :=
  unfold run, main, initial, save_json_data, open_and_dump, upload_file,
    get_upload_link, get_cat_image, create_folder, requests, input, read_line,
    print, emit, lift, py_get, mbind, M_bind, fmap, M_fmap, mret, M_ret,
    mthrow, M_throw.

Ltac simp :=
  cbn -[u strip safe_filename truediv_1024 format_2f len is_empty Z.eqb
        truthy default bool_decide default_filename In].

(** The scrutinee on which the evaluation of a term is blocked. *)
Ltac innermost x :=
  match x with
  | context [match ?y with _ => _ end] => innermost y
  | _ => x
  end.

Ltac branch :=
  match goal with
  | |- context [match ?x with _ => _ end] =>
      let y := innermost x in destruct y eqn:?
  end.

(** Case analysis on everything the world decides during a run. *)
Ltac run_cases :=
  match goal with
  | |- context [run ?i ?w] =>
      let E := fresh "E" in
      destruct (run i w) as [? ?] eqn:E; revert E;
      unfold_script; simp; repeat (branch; simp);
      intros E; apply pair_equal_spec in E as [<- <-];
      cbn [log disk pending fst snd]
  end.

(** Which event of a concrete log a hypothesis [In e log] speaks of. *)
Ltac in_log H :=
  cbn [In] in H;
  repeat match type of H with
  | _ \/ _ => destruct H as [H|H]
  | False => destruct H
  | Http _ _ = Http _ _ =>
      let Hc := fresh in
      apply Http_inj in H as [Hc H]; first [discriminate Hc | clear Hc; subst]
  | Dump _ _ = Dump _ _ =>
      let Hc := fresh in
      apply Dump_inj in H as [Hc H]; subst
  | _ = _ => discriminate H
  end.

Ltac props :=
  repeat match goal with
  | H : (_ =? _)%Z = true |- _ => apply Z.eqb_eq in H
  | H : (_ =? _)%Z = false |- _ => apply Z.eqb_neq in H
  | H : negb (bool_decide (_ ∈ _)) = false |- _ => apply status_ok_iff in H
  | H : negb (bool_decide (_ ∈ _)) = true |- _ =>
      apply not_false_iff_true in H; rewrite status_ok_iff in H
  end.

Ltac lookups :=
  repeat first
    [ rewrite lookup_insert_eq
    | rewrite lookup_insert_ne by (vm_compute; discriminate)
    | rewrite lookup_empty ].

(** Membership in a log that is written out. *)
Ltac in_explicit :=
  unfold hello_prefix; cbn [In app log snd];
  repeat (first [left; reflexivity | right]).

(** ** The end-to-end example *)

Example hello_run :
  run ascii_isalnum (w_hello 2048)
  = (Ok tt,
     State []
       (hello_prefix ++
        [ Print (MsgUploading (u "Hello_World.jpg"));
          Http GetUploadLink hello_link_request;
          Http UploadFile (hello_upload_request 2048);
          Print MsgUploaded;
          Dump (u "upload_info.json") (hello_info 2048);
          Print (MsgSaved (u "upload_info.json"));
          Print MsgInfoHeader; Print (MsgInfoName (u "Hello_World.jpg"));
          Print (MsgInfoText (u "Hello World"));
          Print (MsgInfoFolder (u "group1")); Print (MsgInfoSize 2048 200);
          Print (MsgInfoPath (u "group1/Hello_World.jpg")) ])
       {[ u "upload_info.json" := hello_info 2048 ]}).
Proof. vm_compute. reflexivity. Qed.

Example hello_record_fields :
  payload (hello_info 2048) !! u "file_size_bytes" = Some (VInt 2048)
  /\ payload (hello_info 2048) !! u "file_size_kb" = Some (VFloat 2)
  /\ payload (hello_info 2048) !! u "upload_status" = Some (VStr (u "success")).
Proof. vm_compute. auto. Qed.

Example no_cat_run :
  run ascii_isalnum w_no_cat
  = (Ok tt, State [] (hello_prefix ++ [Print MsgFetchError]) ∅).
Proof. vm_compute. reflexivity. Qed.

Example empty_cat_run :
  run ascii_isalnum w_empty_cat
  = (Ok tt, State [] (hello_prefix ++ [Print MsgFetchError]) ∅).
Proof. vm_compute. reflexivity. Qed.

Example folder_exists_run :
  log (run ascii_isalnum w_folder_exists).2
  = log (run ascii_isalnum (w_hello 2048)).2.
Proof. vm_compute. reflexivity. Qed.

Example upload_refused_run :
  run ascii_isalnum w_upload_refused
  = (Ok tt,
     State []
       (hello_prefix ++
        [ Print (MsgUploading (u "Hello_World.jpg"));
          Http GetUploadLink hello_link_request;
          Http UploadFile (hello_upload_request 2048);
          Print MsgUploadFailed;
          Dump (u "upload_error.json") hello_error;
          Print (MsgSaved (u "upload_error.json")) ])
       {[ u "upload_error.json" := hello_error ]}).
Proof. vm_compute. reflexivity. Qed.

Example upload_down_run :
  run ascii_isalnum w_upload_down
  = (Raise RequestException,
     State []
       (hello_prefix ++
        [ Print (MsgUploading (u "Hello_World.jpg"));
          Http GetUploadLink hello_link_request;
          Http UploadFile (hello_upload_request 2048) ])
       ∅).
Proof. vm_compute. reflexivity. Qed.

Example hello_1000_run :
  run ascii_isalnum (w_hello 1000)
  = (Ok tt,
     State []
       (hello_prefix ++
        [ Print (MsgUploading (u "Hello_World.jpg"));
          Http GetUploadLink hello_link_request;
          Http UploadFile (hello_upload_request 1000);
          Print MsgUploaded;
          Dump (u "upload_info.json") (hello_info 1000);
          Print (MsgSaved (u "upload_info.json"));
          Print MsgInfoHeader; Print (MsgInfoName (u "Hello_World.jpg"));
          Print (MsgInfoText (u "Hello World"));
          Print (MsgInfoFolder (u "group1")); Print (MsgInfoSize 1000 98);
          Print (MsgInfoPath (u "group1/Hello_World.jpg")) ])
       {[ u "upload_info.json" := hello_info 1000 ]}).
Proof. vm_compute. reflexivity. Qed.

(** C7.  When one of the three inputs is empty once stripped (in particular
    when an empty line is typed), the run prints the configuration error
    after the three prompts and returns: no request is issued and no file
    is written. *)
Theorem empty_input_aborts (isalnum : N -> bool) (w : world)
    (text token group_name : str) (rest : list str) :
  stdin w = text :: token :: group_name :: rest ->
  strip text = [] \/ strip token = [] \/ strip group_name = [] ->
  run isalnum w
  = (Ok tt,
     State rest
       [ Print MsgBanner; Input PromptText; Input PromptToken;
         Input PromptGroup; Print MsgFieldsRequired ]
       (files w)).
Proof.
  intros Hin Hempty. apply empty_inputs in Hempty.
  unfold_script. rewrite Hin. simp. now rewrite Hempty.
Qed.

Lemma empty_input_aborts_witness :
  storage_calls (log (run ascii_isalnum w_blank_token).2) = 0%nat
  /\ count_calls GetCatImage (log (run ascii_isalnum w_blank_token).2) = 0%nat
  /\ dumps (log (run ascii_isalnum w_blank_token).2) = [].
Proof.
  rewrite (empty_input_aborts ascii_isalnum w_blank_token
             (u "Hello World") (u "   ") (u "group1") []).
  - repeat split.
  - reflexivity.
  - right. left. reflexivity.
Defined.

(** C2, as stated, fails: the folder is created before the picture is
    fetched, so a run in which the content service answers 404 has already
    called the storage service once. *)
Lemma storage_called_before_fetch :
  In (Http GetCatImage hello_cat_request) (log (run ascii_isalnum w_no_cat).2)
  /\ http w_no_cat hello_cat_request = Ok (reply 404)
  /\ status_code (reply 404) <> 200%Z
  /\ count_calls CreateFolder (log (run ascii_isalnum w_no_cat).2) = 1%nat
  /\ storage_calls (log (run ascii_isalnum w_no_cat).2) <> 0%nat.
Proof.
  rewrite no_cat_run.
  split; [in_explicit|]. split; [reflexivity|]. split; [discriminate|].
  split; [reflexivity|]. discriminate.
Qed.

(** C2, amended.  When the content service answers with a status other
    than 200, the run returns after the one folder-creation request that
    precedes the fetch: no upload link is requested, nothing is uploaded
    and no record is written. *)
Theorem fetch_failure_stops_run (isalnum : N -> bool) (w : world)
    (req : request) (r : response) :
  In (Http GetCatImage req) (log (run isalnum w).2) ->
  http w req = Ok r ->
  status_code r <> 200%Z ->
  (run isalnum w).1 = Ok tt
  /\ count_calls CreateFolder (log (run isalnum w).2) = 1%nat
  /\ count_calls GetUploadLink (log (run isalnum w).2) = 0%nat
  /\ count_calls UploadFile (log (run isalnum w).2) = 0%nat
  /\ dumps (log (run isalnum w).2) = []
  /\ disk (run isalnum w).2 = files w.
Proof.
  run_cases; intros Hin Hreq Hst; in_log Hin; props; try congruence.
  all: repeat split.
Qed.

Lemma fetch_failure_stops_run_witness :
  count_calls GetUploadLink (log (run ascii_isalnum w_no_cat).2) = 0%nat
  /\ count_calls UploadFile (log (run ascii_isalnum w_no_cat).2) = 0%nat.
Proof.
  destruct (fetch_failure_stops_run ascii_isalnum w_no_cat
              hello_cat_request (reply 404))
    as (_ & _ & Hlink & Hup & _).
  - rewrite no_cat_run. in_explicit.
  - reflexivity.
  - discriminate.
  - now split.
Defined.

(** C5.  Once the storage service has answered the folder-creation request,
    the run goes on to fetch the picture exactly when the status is 201 or
    409; with any other status the error is printed and the run ends
    without a fetch, a link request, an upload or a record. *)
Theorem folder_step (isalnum : N -> bool) (w : world)
    (req : request) (r : response) :
  In (Http CreateFolder req) (log (run isalnum w).2) ->
  http w req = Ok r ->
  (status_code r = 201%Z \/ status_code r = 409%Z <->
   In (Print MsgFolderReady) (log (run isalnum w).2))
  /\ (status_code r = 201%Z \/ status_code r = 409%Z <->
      count_calls GetCatImage (log (run isalnum w).2) = 1%nat)
  /\ (~ (status_code r = 201%Z \/ status_code r = 409%Z) ->
      In (Print (MsgFolderError (status_code r))) (log (run isalnum w).2)
      /\ count_calls GetCatImage (log (run isalnum w).2) = 0%nat
      /\ count_calls GetUploadLink (log (run isalnum w).2) = 0%nat
      /\ count_calls UploadFile (log (run isalnum w).2) = 0%nat
      /\ dumps (log (run isalnum w).2) = []).
Proof.
  run_cases; intros Hin Hreq; in_log Hin; props.
  all: match goal with
       | H : http ?w ?q = Ok ?a, H' : http ?w ?q = _ |- _ =>
           rewrite H in H'; first [discriminate H' | injection H' as ->]
       end.
  all: cbn [In]; unfold count_calls;
    cbn [List.filter is_call length dumps flat_map app].
  all: repeat split; try tauto; try discriminate; intros; try tauto.
  all: match goal with H : _ \/ _ |- _ => exfalso; in_log H end.
Qed.

Lemma folder_step_witness :
  In (Print MsgFolderReady) (log (run ascii_isalnum w_folder_exists).2)
  /\ count_calls GetCatImage (log (run ascii_isalnum w_folder_exists).2)
     = 1%nat.
Proof.
  destruct (folder_step ascii_isalnum w_folder_exists hello_folder_request
              (reply 409)) as (Hready & Hfetch & _).
  - rewrite folder_exists_run, hello_run. in_explicit.
  - reflexivity.
  - split; [apply Hready | apply Hfetch]; right; reflexivity.
Defined.


(** C9.  A picture of zero bytes answered with status 200 is returned by
    [get_cat_image] as the empty byte string (not [None]), and [main]
    treats it as a failed fetch: the error is printed and the run returns
    before any upload link is requested or anything is uploaded. *)
Theorem empty_body_is_fetch_failure (isalnum : N -> bool) (w : world)
    (req : request) (r : response) :
  http w req = Ok r ->
  status_code r = 200%Z ->
  content r = [] ->
  (forall text s,
     log (get_cat_image w text s).2 = log s ++ [Http GetCatImage req] ->
     (get_cat_image w text s).1 = Ok (Some []))
  /\ (In (Http GetCatImage req) (log (run isalnum w).2) ->
      (run isalnum w).1 = Ok tt
      /\ In (Print MsgFetchError) (log (run isalnum w).2)
      /\ count_calls GetUploadLink (log (run isalnum w).2) = 0%nat
      /\ count_calls UploadFile (log (run isalnum w).2) = 0%nat
      /\ dumps (log (run isalnum w).2) = []).
Proof.
  intros Hreq Hst Hbody. split.
  - intros text s. unfold_script. simp. repeat (branch; simp).
    all: intros Hlog; apply app_inv_head in Hlog; apply (inj (.:: [])) in Hlog.
    all: apply Http_inj in Hlog as [_ <-]; props; congruence.
  - revert Hreq Hst Hbody.
    run_cases; intros Hreq Hst Hbody Hin; in_log Hin; props; try congruence.
    all: repeat split; cbn [In]; tauto.
Qed.

Lemma empty_body_is_fetch_failure_witness :
  (get_cat_image w_empty_cat (u "Hello World")
     (initial w_empty_cat)).1 = Ok (Some [])
  /\ count_calls GetUploadLink (log (run ascii_isalnum w_empty_cat).2) = 0%nat
  /\ count_calls UploadFile (log (run ascii_isalnum w_empty_cat).2) = 0%nat.
Proof.
  destruct (empty_body_is_fetch_failure ascii_isalnum w_empty_cat
              hello_cat_request (picture 0)) as (Hget & Hrun).
  - reflexivity.
  - reflexivity.
  - reflexivity.
  - split.
    + apply Hget. vm_compute. reflexivity.
    + destruct Hrun as (_ & _ & Hlink & Hup & _);
        [rewrite empty_cat_run; in_explicit|].
      now split.
Defined.

(** C3.  Every record the script writes has status ["success"] or
    ["failed"]; a ["success"] record carries [file_size_bytes] and
    [file_size_kb] and no [error]; a ["failed"] record carries a non-empty
    [error] and neither size field. *)
Theorem record_invariant (isalnum : N -> bool) (w : world)
    (filename : str) (f : json_file) :
  In (Dump filename f) (log (run isalnum w).2) ->
  (payload f !! u "upload_status" = Some (VStr (u "success")) ->
     is_Some (payload f !! u "file_size_bytes")
     /\ is_Some (payload f !! u "file_size_kb")
     /\ payload f !! u "error" = None)
  /\ (payload f !! u "upload_status" = Some (VStr (u "failed")) ->
      (exists e, payload f !! u "error" = Some (VStr e) /\ e <> [])
      /\ payload f !! u "file_size_bytes" = None
      /\ payload f !! u "file_size_kb" = None)
  /\ (payload f !! u "upload_status" = Some (VStr (u "success"))
      \/ payload f !! u "upload_status" = Some (VStr (u "failed"))).
Proof.
  run_cases; intros Hin; in_log Hin; cbn [payload]; lookups.
  all: repeat split; try discriminate; eauto.
Qed.

Lemma record_invariant_witness :
  (exists e,
     payload hello_error !! u "error" = Some (VStr e) /\ e <> [])
  /\ payload hello_error !! u "file_size_bytes" = None
  /\ payload hello_error !! u "file_size_kb" = None.
Proof.
  destruct (record_invariant ascii_isalnum w_upload_refused
              (u "upload_error.json") hello_error) as (_ & Hfailed & _).
  - rewrite upload_refused_run. in_explicit.
  - apply Hfailed. reflexivity.
Defined.

(** C8.  A record is written as UTF-8 JSON with an indentation of four and
    without escaping of non-ASCII characters; a ["success"] record goes to
    [upload_info.json] and leaves [upload_error.json] as it was, a
    ["failed"] record goes to [upload_error.json] and leaves
    [upload_info.json] as it was. *)
Theorem record_sinks (isalnum : N -> bool) (w : world)
    (filename : str) (f : json_file) :
  In (Dump filename f) (log (run isalnum w).2) ->
  encoding f = u "utf-8" /\ ensure_ascii f = false /\ indent f = 4%Z
  /\ disk (run isalnum w).2 !! filename = Some f
  /\ ((payload f !! u "upload_status" = Some (VStr (u "success"))
       /\ filename = u "upload_info.json"
       /\ disk (run isalnum w).2 !! u "upload_error.json"
          = files w !! u "upload_error.json")
      \/ (payload f !! u "upload_status" = Some (VStr (u "failed"))
          /\ filename = u "upload_error.json"
          /\ disk (run isalnum w).2 !! u "upload_info.json"
             = files w !! u "upload_info.json")).
Proof.
  run_cases; intros Hin; in_log Hin; cbn [payload encoding ensure_ascii indent];
    unfold default_filename; lookups.
  all: repeat split; auto.
Qed.

Lemma record_sinks_witness :
  disk (run ascii_isalnum (w_hello 2048)).2 !! u "upload_info.json"
  = Some (hello_info 2048)
  /\ encoding (hello_info 2048) = u "utf-8".
Proof.
  destruct (record_sinks ascii_isalnum (w_hello 2048)
              (u "upload_info.json") (hello_info 2048))
    as (Henc & _ & _ & Hdisk & _).
  - rewrite hello_run. in_explicit.
  - now split.
Defined.

(** ** The size in kibibytes *)







(** ** Uploading *)

Lemma count_calls_app (c : call) (l l' : list event) :
  count_calls c (l ++ l') = (count_calls c l + count_calls c l')%nat.
Proof. unfold count_calls. now rewrite List.filter_app, length_app. Qed.

(** Resolving the link issues one request, whatever comes of it. *)
Lemma get_upload_link_log (w : world) (self : YandexDiskUploader)
    (disk_file_path : str) (s : state) :
  exists req,
    log (get_upload_link w self disk_file_path s).2
    = log s ++ [Http GetUploadLink req].
Proof.
  unfold_script. simp. repeat (branch; simp); eexists; reflexivity.
Qed.

(** C4, as stated, fails: when the upload target cannot be reached,
    [upload_file] raises instead of returning [False]; the run ends with
    the exception and no failure record is written. *)
Lemma network_error_is_raised :
  (get_upload_link w_upload_down (init (u "token"))
     (u "group1/Hello_World.jpg") (State [] [] ∅)).1
  = Ok (VStr (u "https://uploader.example/1"))
  /\ http w_upload_down (hello_upload_request 2048) = Raise RequestException
  /\ (upload_file w_upload_down (init (u "token"))
        (u "group1/Hello_World.jpg") (repeat Byte.x00 2048) (State [] [] ∅)).1
     = Raise RequestException
  /\ (upload_file w_upload_down (init (u "token"))
        (u "group1/Hello_World.jpg") (repeat Byte.x00 2048) (State [] [] ∅)).1
     <> Ok false
  /\ (run ascii_isalnum w_upload_down).1 = Raise RequestException
  /\ dumps (log (run ascii_isalnum w_upload_down).2) = [].
Proof.
  rewrite upload_down_run.
  assert (E : (upload_file w_upload_down (init (u "token"))
                 (u "group1/Hello_World.jpg") (repeat Byte.x00 2048)
                 (State [] [] ∅)).1 = Raise RequestException)
    by (vm_compute; reflexivity).
  rewrite E. repeat split; try reflexivity. discriminate.
Qed.

(** C4, amended.  When the resolved target is [None], or any other false
    value, [upload_file] issues no upload request and returns [False].
    Otherwise it issues the upload request and, if a response comes back,
    returns [True] exactly when the status is 201.  A network error, in the
    link request or in the upload, is not turned into [False]: the
    exception reaches the caller. *)
Theorem upload_file_outcomes (w : world) (self : YandexDiskUploader)
    (disk_file_path : str) (file_content : list Byte.byte) (s : state) :
  (forall e s1,
     get_upload_link w self disk_file_path s = (Raise e, s1) ->
     upload_file w self disk_file_path file_content s = (Raise e, s1))
  /\ (forall v s1,
        get_upload_link w self disk_file_path s = (Ok v, s1) ->
        truthy v = false ->
        upload_file w self disk_file_path file_content s = (Ok false, s1))
  /\ (forall v s1,
        get_upload_link w self disk_file_path s = (Ok v, s1) ->
        truthy v = true ->
        exists req,
          req_method req = PUT
          /\ req_url req = v
          /\ req_files req = {[ u "file" := file_content ]}
          /\ log (upload_file w self disk_file_path file_content s).2
             = log s1 ++ [Http UploadFile req]
          /\ (forall r,
                http w req = Ok r ->
                exists b,
                  (upload_file w self disk_file_path file_content s).1 = Ok b
                  /\ (b = true <-> status_code r = 201%Z))
          /\ (forall e,
                http w req = Raise e ->
                (upload_file w self disk_file_path file_content s).1
                = Raise e))
  /\ count_calls UploadFile (log (get_upload_link w self disk_file_path s).2)
     = count_calls UploadFile (log s).
Proof.
  split; [|split; [|split]].
  - intros e s1 E. unfold upload_file, mbind, M_bind. now rewrite E.
  - intros v s1 E Hv. unfold upload_file, mbind, M_bind. now rewrite E, Hv.
  - intros v s1 E Hv.
    exists (Request PUT v ∅ ∅ {[ u "file" := file_content ]}).
    unfold upload_file, mbind at 1 3 5, M_bind. rewrite E, Hv.
    unfold requests, emit, lift, mbind, M_bind, mret, M_ret. simp.
    split; [reflexivity|]. split; [reflexivity|]. split; [reflexivity|].
    destruct (http w _) as [a|e'] eqn:Ea; simp.
    + repeat split; intros r' [= <-].
      exists (status_code a =? 201)%Z. split; [reflexivity|]. apply Z.eqb_eq.
    + repeat split; intros r' [= <-]. reflexivity.
  - destruct (get_upload_link_log w self disk_file_path s) as (req & ->).
    rewrite count_calls_app. cbn. lia.
Qed.

Lemma upload_file_outcomes_witness :
  (upload_file (w_hello 2048) (init (u "token")) (u "group1/Hello_World.jpg")
     (repeat Byte.x00 2048) (State [] [] ∅)).1 = Ok true.
Proof.
  destruct (upload_file_outcomes (w_hello 2048) (init (u "token"))
              (u "group1/Hello_World.jpg") (repeat Byte.x00 2048)
              (State [] [] ∅)) as (_ & _ & Hup & _).
  destruct (Hup (VStr (u "https://uploader.example/1"))
              (State [] [Http GetUploadLink hello_link_request] ∅))
    as (req & Hput & Hurl & _ & _ & Hok & _).
  - vm_compute. reflexivity.
  - reflexivity.
  - destruct (Hok (reply 201)) as (b & Hb & Hiff).
    + destruct req as [m url h p f]. cbn [req_method req_url] in *.
      subst m url. reflexivity.
    + rewrite Hb. f_equal. now apply Hiff.
Defined.

(** * Further properties of the script *)

(** ** More concrete runs *)


Example link_list_run :
  run ascii_isalnum w_link_list
  = (Raise AttributeError,
     State []
       (hello_prefix
        ++ [ Print (MsgUploading (u "Hello_World.jpg"));
             Http GetUploadLink hello_link_request ])
       ∅).
Proof. vm_compute. reflexivity. Qed.

Example forbidden_run :
  run ascii_isalnum w_forbidden
  = (Ok tt,
     State []
       [ Print MsgBanner; Input PromptText; Input PromptToken;
         Input PromptGroup; Print (MsgCreatingFolder (u "group1"));
         Http CreateFolder hello_folder_request;
         Print (MsgFolderError 403); Print (MsgFolderAnswer forbidden_body) ]
       ∅).
Proof. vm_compute. reflexivity. Qed.

Example eof_run :
  run ascii_isalnum w_eof
  = (Raise EOFError,
     State []
       [ Print MsgBanner; Input PromptText; Input PromptToken;
         Input PromptGroup ]
       ∅).
Proof. vm_compute. reflexivity. Qed.

(** ** Tactics for the properties below *)

(** As [in_log], for an event whose function is not known beforehand. *)
Ltac in_log_any H :=
  cbn [In] in H;
  repeat match type of H with
  | _ \/ _ => destruct H as [H|H]
  | False => destruct H
  | Http _ _ = Http _ _ =>
      let Hc := fresh in
      apply Http_inj in H as [Hc H]; first [discriminate Hc | subst]
  | Dump _ _ = Dump _ _ =>
      let Hc := fresh in
      apply Dump_inj in H as [Hc H]; subst
  | _ = _ => discriminate H
  end.

(** Two hypotheses on the same observation of the world are merged. *)
Ltac same_world :=
  repeat match goal with
  | H : [] = _ :: _ |- _ => discriminate H
  | H : _ :: _ = _ :: _ |- _ => injection H as; intros; subst
  | H : Ok _ = Raise _ |- _ => discriminate H
  | H : Raise _ = Ok _ |- _ => discriminate H
  | H : Some _ = None |- _ => discriminate H
  | H : None = Some _ |- _ => discriminate H
  | H : Ok _ = Ok _ |- _ => first [injection H as; intros; subst | clear H]
  | H : Raise _ = Raise _ |- _ =>
      first [injection H as; intros; subst | clear H]
  | H : http ?w ?q = _, H' : http ?w ?q = _ |- _ =>
      rewrite H in H'; first [discriminate H' | injection H' as <-]
  | H : json ?r = _, H' : json ?r = _ |- _ =>
      rewrite H in H'; first [discriminate H' | injection H' as <-]
  | H : open_error ?w ?n = _, H' : open_error ?w ?n = _ |- _ =>
      rewrite H in H'; first [discriminate H' | injection H' as <-]
  end.

Ltac in_leaf := cbn [In]; repeat (first [left; reflexivity | right]).

(** ** The order of the requests *)

(** X1.  The requests of a run are issued in a fixed order, each function
    at most once: folder creation, fetch, link resolution, upload.  No run
    issues a later request without the earlier ones. *)
Theorem calls_in_order (isalnum : N -> bool) (w : world) :
  calls (log (run isalnum w).2)
  `prefix_of` [CreateFolder; GetCatImage; GetUploadLink; UploadFile].
Proof.
  run_cases; cbn [calls flat_map app]; eexists; reflexivity.
Qed.


(** ** What each request carries *)

(** X3.  The credential goes to the storage API only: the folder and link
    requests carry the header [Authorization: OAuth <token>], with the
    stripped second input line as token; the request to the content
    service and the upload to the resolved target carry no header. *)
Theorem token_goes_to_storage_only (isalnum : N -> bool) (w : world)
    (text token group_name : str) (rest : list str)
    (c : call) (req : request) :
  stdin w = text :: token :: group_name :: rest ->
  In (Http c req) (log (run isalnum w).2) ->
  req_headers req
  = match c with
    | CreateFolder | GetUploadLink =>
        {[ u "Authorization" := u "OAuth " ++ strip token ]}
    | GetCatImage | UploadFile => ∅
    end.
Proof.
  run_cases; intros Hstdin Hin; same_world; in_log_any Hin; reflexivity.
Qed.

Lemma token_goes_to_storage_only_witness :
  req_headers hello_cat_request = ∅.
Proof.
  apply (token_goes_to_storage_only ascii_isalnum (w_hello 2048)
           (u "Hello World") (u "token") (u "group1") [] GetCatImage).
  - reflexivity.
  - rewrite hello_run. in_explicit.
Defined.

(** X4.  The content service is asked for the display text as typed (only
    stripped), appended to the URL as it is, with the fixed rendering
    parameters; the sanitised file name plays no part in the fetch. *)
Theorem fetch_request_shape (isalnum : N -> bool) (w : world)
    (text token group_name : str) (rest : list str) (req : request) :
  stdin w = text :: token :: group_name :: rest ->
  In (Http GetCatImage req) (log (run isalnum w).2) ->
  req_method req = GET
  /\ req_url req = VStr (u "https://cataas.com/cat/says/" ++ strip text)
  /\ req_params req !! u "width" = Some (VInt 800)
  /\ req_params req !! u "height" = Some (VInt 600)
  /\ req_params req !! u "color" = Some (VStr (u "white"))
  /\ req_files req = ∅.
Proof.
  run_cases; intros Hstdin Hin; same_world; in_log Hin;
    cbn [req_method req_url req_params req_files]; lookups; repeat split.
Qed.

Lemma fetch_request_shape_witness :
  req_url hello_cat_request
  = VStr (u "https://cataas.com/cat/says/" ++ strip (u "Hello World")).
Proof.
  apply (fetch_request_shape ascii_isalnum (w_hello 2048)
           (u "Hello World") (u "token") (u "group1") [] hello_cat_request).
  - reflexivity.
  - rewrite hello_run. in_explicit.
Defined.

(** X5.  What is uploaded is what was fetched: the upload request is a PUT
    to the [href] of the link response, and its one file is the body of the
    response of the content service, byte for byte. *)
Theorem upload_sends_fetched_bytes (isalnum : N -> bool) (w : world)
    (req : request) :
  In (Http UploadFile req) (log (run isalnum w).2) ->
  exists fetch picture link answer body,
    In (Http GetCatImage fetch) (log (run isalnum w).2)
    /\ http w fetch = Ok picture
    /\ req_files req = {[ u "file" := content picture ]}
    /\ In (Http GetUploadLink link) (log (run isalnum w).2)
    /\ http w link = Ok answer
    /\ json answer = Ok (VDict body)
    /\ body !! u "href" = Some (req_url req)
    /\ req_method req = PUT.
Proof.
  run_cases; intros Hin; in_log Hin.
  all: match goal with
       | Hf : http ?w ?f = Ok ?p, Ec : content ?p = _ :: _,
         Hl : http ?w ?l = Ok ?a, Ej : json ?a = Ok (VDict ?d),
         Ht : truthy (default VNone (?d !! ?k)) = true |- _ =>
           exists f, p, l, a, d; rewrite Ec;
           destruct (d !! k) as [v|] eqn:Ev; [|discriminate Ht]
       end.
  all: repeat split; try assumption; in_leaf.
Qed.

Lemma upload_sends_fetched_bytes_witness :
  exists picture,
    http (w_hello 2048) hello_cat_request = Ok picture
    /\ req_files (hello_upload_request 2048)
       = {[ u "file" := content picture ]}.
Proof.
  destruct (upload_sends_fetched_bytes ascii_isalnum (w_hello 2048)
              (hello_upload_request 2048))
    as (fetch & picture & _ & _ & _ & Hfetch & Hpicture & Hfiles & _).
  - rewrite hello_run. in_explicit.
  - rewrite hello_run in Hfetch. unfold hello_prefix in Hfetch.
    cbn [log snd app] in Hfetch. in_log Hfetch.
    exists picture. now split.
Defined.

(** X6.  The record agrees with the requests: it names the stripped text
    and folder, the file name derived from the text and the path
    [folder/file], and that path is the one for which the upload link was
    requested, with overwriting allowed. *)
Theorem record_names_agree (isalnum : N -> bool) (w : world)
    (text token group_name : str) (rest : list str)
    (filename : str) (f : json_file) :
  stdin w = text :: token :: group_name :: rest ->
  In (Dump filename f) (log (run isalnum w).2) ->
  let file_name := safe_filename isalnum (strip text) in
  let disk_path := strip group_name ++ u "/" ++ file_name in
  payload f !! u "original_text" = Some (VStr (strip text))
  /\ payload f !! u "folder_name" = Some (VStr (strip group_name))
  /\ payload f !! u "file_name" = Some (VStr file_name)
  /\ payload f !! u "disk_path" = Some (VStr disk_path)
  /\ payload f !! u "upload_date" = Some (VStr (now w))
  /\ exists link,
       In (Http GetUploadLink link) (log (run isalnum w).2)
       /\ req_params link !! u "path" = Some (VStr disk_path)
       /\ req_params link !! u "overwrite" = Some (VStr (u "true")).
Proof.
  run_cases; intros Hstdin Hin; same_world; in_log Hin; cbn [payload]; lookups.
  all: repeat split.
  all: eexists; split; [in_leaf|]; cbn [req_params]; lookups; split; reflexivity.
Qed.

Lemma record_names_agree_witness :
  payload hello_error !! u "disk_path"
  = Some (VStr (strip (u "group1") ++ u "/"
                ++ safe_filename ascii_isalnum (strip (u "Hello World")))).
Proof.
  destruct (record_names_agree ascii_isalnum w_upload_refused
              (u "Hello World") (u "token") (u "group1") []
              (u "upload_error.json") hello_error)
    as (_ & _ & _ & Hpath & _).
  - reflexivity.
  - rewrite upload_refused_run. in_explicit.
  - exact Hpath.
Defined.

(** ** Failures of the upload step *)





(** X9.  A link response whose body is not a JSON object ends the run with
    an exception (the decoding error, or an attribute error for JSON of
    another kind); nothing is uploaded and no record is written. *)
Theorem link_body_must_be_object (isalnum : N -> bool) (w : world)
    (req : request) (r : response) :
  In (Http GetUploadLink req) (log (run isalnum w).2) ->
  http w req = Ok r ->
  (forall body, json r <> Ok (VDict body)) ->
  (exists e,
     (run isalnum w).1 = Raise e
     /\ (json r = Raise e \/ (e = AttributeError /\ exists v, json r = Ok v)))
  /\ count_calls UploadFile (log (run isalnum w).2) = 0%nat
  /\ dumps (log (run isalnum w).2) = []
  /\ disk (run isalnum w).2 = files w.
Proof.
  run_cases; intros Hin Hreq Hbody; in_log Hin; same_world.
  all: try (exfalso; eapply Hbody; eassumption).
  all: split; [eexists; split; [reflexivity|]|repeat split].
  all: first [left; assumption | right; split; [reflexivity|]; eauto].
Qed.

Lemma link_body_must_be_object_witness :
  (run ascii_isalnum w_link_list).1 = Raise AttributeError.
Proof.
  destruct (link_body_must_be_object ascii_isalnum w_link_list
              hello_link_request (Response 200 [] (Ok (VList []))))
    as ((e & He & [Hj | [-> _]]) & _).
  - rewrite link_list_run. in_explicit.
  - reflexivity.
  - intros body. discriminate.
  - discriminate Hj.
  - exact He.
Defined.

(** ** Failures before the fetch *)

(** X10.  When the input ends before all three prompts are answered, the
    run ends with [EOFError]: no request has been issued and nothing is
    written. *)
Theorem short_input_aborts (isalnum : N -> bool) (w : world) :
  (length (stdin w) < 3)%nat ->
  (run isalnum w).1 = Raise EOFError
  /\ calls (log (run isalnum w).2) = []
  /\ dumps (log (run isalnum w).2) = []
  /\ disk (run isalnum w).2 = files w.
Proof.
  run_cases; cbn [length]; intros Hlen; try lia; repeat split.
Qed.

Lemma short_input_aborts_witness :
  (run ascii_isalnum w_eof).1 = Raise EOFError.
Proof.
  apply (short_input_aborts ascii_isalnum w_eof). cbn. lia.
Defined.

(** X11.  When the folder request is answered with a status other than 201
    and 409, the run prints the status and then decodes the body: it
    returns normally, having printed the body, when the body is JSON, and
    ends with the decoding error otherwise.  The folder request is its only
    request. *)
Theorem folder_refusal_prints_body (isalnum : N -> bool) (w : world)
    (req : request) (r : response) :
  In (Http CreateFolder req) (log (run isalnum w).2) ->
  http w req = Ok r ->
  status_code r <> 201%Z ->
  status_code r <> 409%Z ->
  calls (log (run isalnum w).2) = [CreateFolder]
  /\ In (Print (MsgFolderError (status_code r))) (log (run isalnum w).2)
  /\ (forall body,
        json r = Ok body ->
        (run isalnum w).1 = Ok tt
        /\ In (Print (MsgFolderAnswer body)) (log (run isalnum w).2))
  /\ (forall e, json r = Raise e -> (run isalnum w).1 = Raise e).
Proof.
  run_cases; intros Hin Hreq H201 H409; in_log Hin; same_world; props;
    try tauto.
  all: split; [reflexivity|]. all: split; [in_leaf|].
  all: split; [intros body Hb | intros e' He']; same_world.
  all: first [reflexivity | split; [reflexivity | in_leaf]].
Qed.

Lemma folder_refusal_prints_body_witness :
  In (Print (MsgFolderAnswer forbidden_body))
     (log (run ascii_isalnum w_forbidden).2).
Proof.
  destruct (folder_refusal_prints_body ascii_isalnum w_forbidden
              hello_folder_request (Response 403 [] (Ok forbidden_body)))
    as (_ & _ & Hbody & _).
  - rewrite forbidden_run. in_explicit.
  - reflexivity.
  - discriminate.
  - discriminate.
  - apply Hbody. reflexivity.
Defined.

(** ** Saving a record *)



(** ** The size printed on the console *)

Lemma format_2f_near (x : Q) :
  (inject_Z (format_2f x) - (1 # 2) <= x * 100
   /\ x * 100 <= inject_Z (format_2f x) + (1 # 2))%Q.
Proof.
  unfold format_2f.
  pose proof (Qfloor_le (x * 100)) as Hle.
  pose proof (Qlt_floor (x * 100)) as Hlt.
  rewrite inject_Z_plus in Hlt. change (inject_Z 1) with 1%Q in Hlt.
  destruct (Qcompare_spec (x * 100 - inject_Z (Qfloor (x * 100))) (1 # 2))
    as [He|Hc|Hc].
  - destruct (Z.even (Qfloor (x * 100)));
      rewrite ?inject_Z_plus; change (inject_Z 1) with 1%Q; split; lra.
  - split; lra.
  - rewrite inject_Z_plus. change (inject_Z 1) with 1%Q. split; lra.
Qed.

(** X13.  The size line of the console agrees with the record: the number
    of bytes printed is the [file_size_bytes] of the record written just
    before, and the kilobytes printed are the stored [file_size_kb] rounded
    to hundredths, at most half a hundredth away from it. *)
Theorem printed_size_matches_record (isalnum : N -> bool) (w : world)
    (size hundredths : Z) :
  In (Print (MsgInfoSize size hundredths)) (log (run isalnum w).2) ->
  exists f kb,
    dumps (log (run isalnum w).2) = [(u "upload_info.json", f)]
    /\ payload f !! u "file_size_bytes" = Some (VInt size)
    /\ payload f !! u "file_size_kb" = Some (VFloat kb)
    /\ hundredths = format_2f kb
    /\ (inject_Z hundredths - (1 # 2) <= kb * 100
        /\ kb * 100 <= inject_Z hundredths + (1 # 2))%Q.
Proof.
  run_cases; intros Hin; in_log Hin.
  all: match type of Hin with
       | Print (MsgInfoSize ?n ?h) = Print (MsgInfoSize _ _) =>
           assert (size = n /\ hundredths = h) as [-> ->]
             by (split; congruence)
       end.
  all: eexists _, _; split; [reflexivity|]; cbn [payload]; lookups.
  all: repeat split; apply format_2f_near.
Qed.

Lemma printed_size_matches_record_witness :
  exists f,
    dumps (log (run ascii_isalnum (w_hello 1000)).2)
    = [(u "upload_info.json", f)]
    /\ payload f !! u "file_size_bytes" = Some (VInt 1000).
Proof.
  destruct (printed_size_matches_record ascii_isalnum (w_hello 1000) 1000 98)
    as (f & kb & Hd & Hb & _).
  - rewrite hello_1000_run. in_explicit.
  - exists f. now split.
Defined.

(** ** Degenerate file names *)

Lemma rstrip_nil_iff (s : str) :
  rstrip s = [] <-> forall c, In c s -> isspace c = true.
Proof.
  induction s as [|a s IH]; [cbn; tauto|].
  cbn [rstrip In]. destruct (rstrip s) as [|x r] eqn:E.
  - destruct (isspace a) eqn:Ea; split; try discriminate.
    + intros _ c [<-|Hc]; [exact Ea | now apply IH].
    + reflexivity.
    + intros H. rewrite (H a (or_introl eq_refl)) in Ea. discriminate.
  - split; [discriminate|]. intros H.
    assert (x :: r = []) by (apply IH; auto). discriminate.
Qed.

Lemma rstrip_no_space (s : str) :
  (forall c, In c s -> isspace c = false) -> rstrip s = s.
Proof.
  induction s as [|a s IH]; intros H; [reflexivity|].
  cbn [rstrip]. rewrite IH by (intros c Hc; apply H; now right).
  destruct s; [|reflexivity].
  now rewrite (H a (or_introl eq_refl)).
Qed.

(** X14.  The derived name is the bare extension [".jpg"] exactly when
    every character of the text that the filter keeps is whitespace: a
    text of punctuation only passes the emptiness check of [main] and is
    uploaded under the name [".jpg"]. *)
Theorem bare_extension_iff (isalnum : N -> bool) (text : str) :
  safe_filename isalnum text = u ".jpg"
  <-> (forall c, In c text -> keep isalnum c = true -> isspace c = true).
Proof.
  rewrite safe_filename_stem.
  assert (Hnil : stem isalnum text ++ u ".jpg" = u ".jpg"
                 <-> stem isalnum text = []).
  { split; [|intros ->; reflexivity].
    intros H. apply (app_inv_tail (u ".jpg")). exact H. }
  rewrite Hnil. unfold stem, replace. split.
  - intros H. apply List.map_eq_nil in H. rewrite rstrip_nil_iff in H.
    intros c Hc Hk. apply H. apply filter_In. now split.
  - intros H.
    assert (E : rstrip (List.filter (keep isalnum) text) = []).
    { apply rstrip_nil_iff. intros c Hc.
      apply filter_In in Hc as [Hc Hk]. auto. }
    now rewrite E.
Qed.

Lemma bare_extension_iff_witness :
  safe_filename ascii_isalnum (u "?!") = u ".jpg".
Proof.
  apply (bare_extension_iff ascii_isalnum (u "?!")).
  intros c Hc. vm_compute in Hc.
  repeat (destruct Hc as [<-|Hc]; [discriminate|]). destruct Hc.
Defined.

(** X15.  Deriving a name is idempotent: the stem of a derived name, taken
    as a text, derives the same name again (for a classifier under which
    no alphanumeric is whitespace, as in Unicode). *)
Theorem safe_filename_idempotent (isalnum : N -> bool) (text : str) :
  (forall c, isalnum c = true -> isspace c = false) ->
  safe_filename isalnum (stem isalnum text) = safe_filename isalnum text.
Proof.
  intros Hclass. rewrite !safe_filename_stem. f_equal.
  assert (Hchars : forall c, In c (stem isalnum text) ->
                     keep isalnum c = true /\ isspace c = false).
  { intros c Hc. apply stem_chars in Hc as [Hc|[->| ->]].
    - split; [|auto]. apply keep_spec. auto.
    - split; [|reflexivity]. apply keep_spec. auto.
    - split; [|reflexivity]. apply keep_spec. auto. }
  unfold stem at 1.
  rewrite filter_all by (intros c Hc; now apply Hchars).
  rewrite rstrip_no_space by (intros c Hc; now apply Hchars).
  unfold replace. rewrite <- (List.map_id (stem isalnum text)) at 2.
  apply List.map_ext_in. intros c Hc.
  destruct (N.eqb_spec c space) as [->|]; [|reflexivity].
  apply Hchars in Hc as [_ Hs]. discriminate Hs.
Qed.

Lemma safe_filename_idempotent_witness :
  safe_filename ascii_isalnum (stem ascii_isalnum (u "a/b: c! "))
  = safe_filename ascii_isalnum (u "a/b: c! ").
Proof.
  apply (safe_filename_idempotent ascii_isalnum (u "a/b: c! ")).
  intros c. unfold ascii_isalnum, isspace.
  rewrite !orb_true_iff, !andb_true_iff, !N.leb_le.
  intros H.
  repeat (apply orb_false_intro);
    try (apply andb_false_iff; rewrite !N.leb_gt; lia);
    apply N.eqb_neq; lia.
Defined.

(** ** Network errors *)

(** X16.  No request is guarded: when any of the four requests raises, the
    run ends with that exception at that very request, which is the last
    event of the log, and no record is written. *)
Theorem request_error_ends_run (isalnum : N -> bool) (w : world)
    (c : call) (req : request) (e : exn) :
  In (Http c req) (log (run isalnum w).2) ->
  http w req = Raise e ->
  (run isalnum w).1 = Raise e
  /\ last (log (run isalnum w).2) = Some (Http c req)
  /\ dumps (log (run isalnum w).2) = []
  /\ disk (run isalnum w).2 = files w.
Proof.
  run_cases; intros Hin Hreq; in_log_any Hin; same_world.
  all: repeat split.
Qed.

Lemma request_error_ends_run_witness :
  (run ascii_isalnum w_upload_down).1 = Raise RequestException.
Proof.
  apply (request_error_ends_run ascii_isalnum w_upload_down UploadFile
           (hello_upload_request 2048) RequestException).
  - rewrite upload_down_run. in_explicit.
  - reflexivity.
Defined.
